(** * The NER report notebook: document model and consistency checks

    The repository is one Jupyter notebook, [report/report.ipynb]: nine
    markdown cells and one code cell.  This development embeds the document
    as it is stored (cells and their source lines), the functions that read
    its tables, label list and image links out of the markdown text, and an
    interpreter for the statement forms the code cell is written in. *)

From Stdlib Require Import String Ascii List ZArith QArith Qround Qabs Lia Lqa.
From stdpp Require Import gmap strings pretty.

Set Warnings "-register-all".

(** ** Text utilities *)

Module Text.

(** The double-quote character, as a one-character string. *)
Definition dq : string := String "034"%char EmptyString.

(** The line-feed character and the backslash. *)
Definition lf : ascii := "010"%char.
Definition backslash : ascii := "092"%char.

Definition is_space (c : ascii) : bool := Ascii.eqb c " "%char.

Definition is_digit (c : ascii) : bool :=
  let n := nat_of_ascii c in (48 <=? n)%nat && (n <=? 57)%nat.

Definition is_alpha (c : ascii) : bool :=
  let n := nat_of_ascii c in
  ((65 <=? n)%nat && (n <=? 90)%nat) || ((97 <=? n)%nat && (n <=? 122)%nat)
  || (n =? 95)%nat.

Fixpoint all_chars (p : ascii -> bool) (s : string) : bool :=
  match s with
  | EmptyString => true
  | String c r => p c && all_chars p r
  end.

Fixpoint has_char (c : ascii) (s : string) : bool :=
  match s with
  | EmptyString => false
  | String d r => Ascii.eqb c d || has_char c r
  end.

(** [contains p s]: [p] occurs in [s] as a substring. *)
Definition contains (p s : string) : bool :=
  match String.index 0 p s with Some _ => true | None => false end.

Fixpoint drop_spaces (s : string) : string :=
  match s with
  | String c r => if is_space c then drop_spaces r else s
  | EmptyString => EmptyString
  end.

Fixpoint rev_onto (s acc : string) : string :=
  match s with
  | EmptyString => acc
  | String c r => rev_onto r (String c acc)
  end.

Definition rev (s : string) : string := rev_onto s EmptyString.

(** Python's [str.strip()] restricted to blanks. *)
Definition trim (s : string) : string :=
  rev (drop_spaces (rev (drop_spaces s))).

Definition is_blank (s : string) : bool :=
  match drop_spaces s with EmptyString => true | _ => false end.

(** [strip_prefix p s = Some r] when [s = p ++ r]. *)
Fixpoint strip_prefix (p s : string) : option string :=
  match p, s with
  | EmptyString, _ => Some s
  | String a p', String b s' =>
      if Ascii.eqb a b then strip_prefix p' s' else None
  | String _ _, EmptyString => None
  end.

Definition strip_suffix (p s : string) : option string :=
  match strip_prefix (rev p) (rev s) with
  | Some r => Some (rev r)
  | None => None
  end.

(** [split_once sep s]: the text before and after the first occurrence
    of [sep] in [s]. *)
Definition split_once (sep s : string) : option (string * string) :=
  match String.index 0 sep s with
  | Some i =>
      Some (String.substring 0 i s,
            String.substring (i + String.length sep)
              (String.length s - (i + String.length sep)) s)
  | None => None
  end.

(** [split_char c s]: the fields of [s] separated by the character [c]
    (Python's [s.split(c)]). *)
Fixpoint split_char_aux (c : ascii) (s : string) (cur : string) : list string :=
  match s with
  | EmptyString => [rev cur]
  | String d r =>
      if Ascii.eqb c d then rev cur :: split_char_aux c r EmptyString
      else split_char_aux c r (String d cur)
  end.

Definition split_char (c : ascii) (s : string) : list string :=
  split_char_aux c s EmptyString.

(** Decimal digits to a natural number. *)
Fixpoint digits_value (s : string) (acc : N) : N :=
  match s with
  | EmptyString => acc
  | String c r => digits_value r (10 * acc + (N_of_ascii c - 48))%N
  end.

Definition parse_nat (s : string) : option N :=
  match s with
  | EmptyString => None
  | _ => if all_chars is_digit s then Some (digits_value s 0%N) else None
  end.

(** A decimal numeral such as [78.03] or [1837], as an exact rational:
    the digits without the point over ten to the number of decimals. *)
Definition parse_decimal (s : string) : option Q :=
  match split_once "." s with
  | Some (ip, fp) =>
      match parse_nat ip, parse_nat fp with
      | Some i, Some f =>
          let scale := (10 ^ N.of_nat (String.length fp))%N in
          Some (Qmake (Z.of_N (i * scale + f)) (Pos.of_nat (N.to_nat scale)))
      | _, _ => None
      end
  | None =>
      match parse_nat s with
      | Some i => Some (Qmake (Z.of_N i) 1)
      | None => None
      end
  end.

(** Python's [str.lower()] on ASCII letters. *)
Definition lower_char (c : ascii) : ascii :=
  let n := nat_of_ascii c in
  if (65 <=? n)%nat && (n <=? 90)%nat then ascii_of_nat (n + 32) else c.

Fixpoint lower (s : string) : string :=
  match s with
  | EmptyString => EmptyString
  | String c r => String (lower_char c) (lower r)
  end.

End Text.

(** ** The notebook file *)

Module Notebook.
Import Text.

(** JSON values, as far as the notebook format uses them. *)
Inductive json :=
| JNum (n : Z)
| JStr (s : string)
| JArr (items : list json)
| JObj (fields : list (string * json)).

(** A cell of the notebook.  [source] holds the lines of the cell's text
    without their line terminators; every line but the last is followed
    by a line feed in the file, the last one when [final_newline] is set.
    A code cell also records its execution counter and its outputs. *)
Inductive cell :=
| MarkdownCell (source : list string) (final_newline : bool)
| CodeCell (execution_count : Z) (outputs : list json)
           (source : list string) (final_newline : bool).

Definition source (c : cell) : list string :=
  match c with
  | MarkdownCell s _ => s
  | CodeCell _ _ s _ => s
  end.

Definition final_newline (c : cell) : bool :=
  match c with
  | MarkdownCell _ b => b
  | CodeCell _ _ _ b => b
  end.

Definition is_code (c : cell) : bool :=
  match c with CodeCell _ _ _ _ => true | MarkdownCell _ _ => false end.

Definition is_markdown (c : cell) : bool := negb (is_code c).

Definition outputs (c : cell) : list json :=
  match c with
  | MarkdownCell _ _ => []
  | CodeCell _ o _ _ => o
  end.

Record notebook := {
  cells : list cell;
  metadata : json;
  nbformat : Z;
  nbformat_minor : Z }.

(** *** The file layout

    The file is the notebook's JSON value written with sorted keys, one
    space of indentation per level, one line per scalar and per bracket
    of a non-empty container. *)

Fixpoint escape (s : string) : string :=
  match s with
  | EmptyString => EmptyString
  | String c r =>
      if Ascii.eqb c "034"%char then String backslash (String c (escape r))
      else if Ascii.eqb c backslash then String backslash (String c (escape r))
      else if Ascii.eqb c lf then String backslash (String "n"%char (escape r))
      else String c (escape r)
  end.

Definition quote (s : string) : string := dq +:+ escape s +:+ dq.

Fixpoint spaces (n : nat) : string :=
  match n with O => EmptyString | S k => String " "%char (spaces k) end.

Fixpoint add_comma (ls : list string) : list string :=
  match ls with
  | [] => []
  | [l] => [l +:+ ","]
  | l :: r => l :: add_comma r
  end.

(** One member of a container: its first line carries the indentation
    and the key, its last line the separating comma. *)
Definition member (ind : nat) (key : string) (body : list string)
                  (last : bool) : list string :=
  let ls := match body with
            | [] => []
            | l :: r => (spaces ind +:+ key +:+ l) :: r
            end in
  if last then ls else add_comma ls.

Definition is_nil {A} (l : list A) : bool :=
  match l with [] => true | _ => false end.

Fixpoint render (ind : nat) (j : json) : list string :=
  match j with
  | JNum n => [pretty n]
  | JStr s => [quote s]
  | JArr [] => ["[]"]
  | JArr items =>
      "[" ::
      (fix go (l : list json) : list string :=
         match l with
         | [] => []
         | x :: r => member (S ind) "" (render (S ind) x) (is_nil r) ++ go r
         end) items
      ++ [spaces ind +:+ "]"]
  | JObj [] => ["{}"]
  | JObj fields =>
      "{" ::
      (fix go (l : list (string * json)) : list string :=
         match l with
         | [] => []
         | (k, v) :: r =>
             member (S ind) (quote k +:+ ": ") (render (S ind) v) (is_nil r)
             ++ go r
         end) fields
      ++ [spaces ind +:+ "}"]
  end.

(** The entries of a cell's [source] array: each line with its terminator. *)
Fixpoint source_entries (ls : list string) (final_nl : bool) : list string :=
  match ls with
  | [] => []
  | [l] => [if final_nl then l +:+ String lf EmptyString else l]
  | l :: r => (l +:+ String lf EmptyString) :: source_entries r final_nl
  end.

Definition cell_json (c : cell) : json :=
  match c with
  | MarkdownCell s nl =>
      JObj [ ("cell_type", JStr "markdown")
           ; ("metadata", JObj [])
           ; ("source", JArr (map JStr (source_entries s nl))) ]
  | CodeCell n o s nl =>
      JObj [ ("cell_type", JStr "code")
           ; ("execution_count", JNum n)
           ; ("metadata", JObj [])
           ; ("outputs", JArr o)
           ; ("source", JArr (map JStr (source_entries s nl))) ]
  end.

Definition notebook_json (nb : notebook) : json :=
  JObj [ ("cells", JArr (map cell_json (cells nb)))
       ; ("metadata", metadata nb)
       ; ("nbformat", JNum (nbformat nb))
       ; ("nbformat_minor", JNum (nbformat_minor nb)) ].

Definition file_lines (nb : notebook) : list string :=
  render 0 (notebook_json nb).

(** What a line of the file is: a line of the source text of a markdown
    cell or of a code cell, a line of the JSON wrapper of such a cell, or
    a line of the notebook's envelope (the outer brackets, the notebook
    metadata and the format numbers). *)
Inductive line_kind :=
| MarkdownText | MarkdownFraming | CodeText | CodeFraming | Envelope.

Definition line_kind_eqb (a b : line_kind) : bool :=
  match a, b with
  | MarkdownText, MarkdownText | MarkdownFraming, MarkdownFraming
  | CodeText, CodeText | CodeFraming, CodeFraming
  | Envelope, Envelope => true
  | _, _ => false
  end.

(** The lines of a cell in the file: the wrapper down to the opening of
    the [source] array, the source lines, and the two closing brackets. *)
Definition cell_line_kinds (c : cell) : list line_kind :=
  let text := if is_code c then CodeText else MarkdownText in
  let framing := if is_code c then CodeFraming else MarkdownFraming in
  let n := length (render 2 (cell_json c)) in
  let k := length (source c) in
  repeat framing (n - k - 2) ++ repeat text k ++ repeat framing 2.

(** The lines of the file: the opening of the notebook object and of
    its [cells] array, the cells, then the closing of the array, the
    metadata, the two format numbers and the closing bracket. *)
Definition file_line_kinds (nb : notebook) : list line_kind :=
  repeat Envelope 2
  ++ concat (map cell_line_kinds (cells nb))
  ++ repeat Envelope (length (render 1 (metadata nb)) + 4).

Definition count_kind (k : line_kind) (ks : list line_kind) : nat :=
  length (List.filter (line_kind_eqb k) ks).

Definition is_text (k : line_kind) : bool :=
  match k with MarkdownText | CodeText => true | _ => false end.

(** The lines of the file that the kinds mark as source text. *)
Definition text_lines (nb : notebook) : list string :=
  map snd (List.filter (fun p => is_text (fst p))
             (combine (file_line_kinds nb) (file_lines nb))).

(** A source entry as it stands in the file: indented by four, quoted,
    and followed by a comma unless it is the last of its cell. *)
Fixpoint entry_lines (es : list string) : list string :=
  match es with
  | [] => []
  | [e] => [spaces 4 +:+ quote e]
  | e :: r => (spaces 4 +:+ quote e +:+ ",") :: entry_lines r
  end.

Definition title_source : list string :=
  [ "# Project - Name Entity Recognition using BERT" ].

Definition title_cell : cell :=
  MarkdownCell title_source false.

Definition page_break_source : list string :=
  [ "\break" ].

Definition page_break_cell : cell :=
  MarkdownCell page_break_source false.

Definition config_source : list string :=
  [ "%config InlineBackend.figure_formats = ['svg']"
  ; ""
  ; "import pandas as pd"
  ; "import numpy as np"
  ; ""
  ; "import matplotlib.pyplot as plt"
  ; "from matplotlib.image import imread"
  ; "import seaborn as sns"
  ; ""
  ; "plt.rcParams['font.family'] = 'Latin Modern Roman'"
  ; ""
  ; "DPI = 800"
  ; ""
  ; "%matplotlib inline" ].

Definition config_cell : cell :=
  CodeCell 17 [] config_source false.

Definition introduction_source : list string :=
  [ "## Introduction"
  ; ""
  ; "### Deep Transfer Learning"
  ; ""
  ; "The definition of deep transfer learning is as follows: given a learning task $T_t$ based on $D_t$, and a related but different learning task $T_s$ based on $D_s$, where $D_s$ and $D_t$ are the source and target domains, respectively, deep transfer learning aims to improve the learning of the target predictive function $f_t(\cdot)$ in $T_t$ using the knowledge in $D_s$ and $T_s$, where $D_s \neq D_t$ and/or $T_s \neq T_t$. Among the various deep transfer learning techniques, network-based deep transfer learning is the most widely used. It is based on the assumption that the source and target domains share the same feature space but have different marginal probability distributions. Recently, pre-trained language models, such as GPT and BERT, with large amounts of unlabeled data and fine-tuning in downstream tasks have made a breakthrough in NLP domain (@fig-networktransfer)."
  ; ""
  ; "![The typical process of network-based deep transfer learning.](images/2023-09-18-23-06-37.png){#fig-networktransfer width=500}"
  ; ""
  ; "### BERT"
  ; ""
  ; "![Overall base architecture of BERT with twelve encoder blocks.](images/2023-09-19-00-30-13.png){#fig-bert width=400}"
  ; ""
  ; "Language models can be roughly categorized into N-gram language models and neural language models. While classical neural models, including Word2Vec, is still widely used today, BERT improves natural language pre-training by using mask-based objectives and a Transformer-based architecture (@fig-bert), which has successfully improved many state-of-the-art results for various natural language tasks. Since more powerful models like GPT3 are not open-source and not available to public, BERT can be regarded as one of the best pre-trained language models for downstream tasks."
  ; ""
  ; "### Dataset"
  ; ""
  ; "There are 2 dataset provided for the project, the training dataset and the testing dataset:"
  ; ""
  ; "| Dataset | No. of words/labels | No. of sentences/phrases |"
  ; "|---------|---------------------|--------------------------|"
  ; "| Training | 219552 | 23499 |"
  ; "| Testing | 55042 | 5946 |"
  ; ""
  ; "Each word (or token) is assigned a NER label that can be one of: "
  ; ""
  ; "- **B-MISC**: Beginning of a miscellaneous entity that doesn't fall under standard categories (like person, organization, or location)."
  ; "- **I-MISC**: Inside or continuation of a miscellaneous entity."
  ; "- **B-PER**: Beginning of a person's name."
  ; "- **I-PER**: Inside or continuation of a person's name. Used for multi-word names."
  ; "- **O**: Outside of any named entity."
  ; "- **B-LOC**: Beginning of a geographical location name."
  ; "- **I-LOC**: Inside or continuation of a geographical location name. Used for multi-word locations."
  ; "- **B-ORG**: Beginning of an organization name."
  ; "- **I-ORG**: Inside or continuation of an organization name. Used for multi-word organizations."
  ; ""
  ; "The **B-** prefix indicates the beginning of an entity, the **I-** prefix indicates that the word is inside an entity, and O indicates a word that is not part of a named entity."
  ; ""
  ; "### Metrics"
  ; ""
  ; "Since the task of NER belongs to the group of multi-label classification problems, the following metrics are used to evaluate the performance of the models:"
  ; ""
  ; "- **Precision**: Precision measures the proportion of correctly identified named entities out of all entities the model identified. It is calculated using the formula:"
  ; ""
  ; "  $$Precision = \frac{TP}{TP + FP}$$"
  ; ""
  ; "  where `TP` is the number of True Positives (correctly identified entities), and `FP` is the number of False Positives (incorrectly identified entities)."
  ; ""
  ; "- **Recall**: Recall assesses the proportion of actual named entities that the model correctly identified. The formula for Recall is:"
  ; ""
  ; "  $$Recall = \frac{TP}{TP + FN}$$"
  ; ""
  ; "  where `FN` is the number of False Negatives (entities that were not identified)."
  ; ""
  ; "- **F1 Score**: The F1 Score is the harmonic mean of Precision and Recall, providing a balance between the two. It is particularly useful when the class distribution is uneven. F1 Score is calculated as:"
  ; ""
  ; "  $$F1 = 2 \times \frac{Precision \times Recall}{Precision + Recall}$$"
  ; ""
  ; "- **Accuracy**: Accuracy measures the overall correctness of the model across all classifications, calculated by:"
  ; ""
  ; "  $$ Accuracy = \frac{TP + TN}{TP + TN + FP + FN}$$"
  ; ""
  ; "  where `TN` is the number of True Negatives (correctly identified non-entities). However, in NER, Accuracy is less informative due to the high number of true negatives (non-entity tokens), which can skew the metric." ].

Definition introduction_cell : cell :=
  MarkdownCell introduction_source true.

Definition pipelines_heading_source : list string :=
  [ "## Training & Evaluation Pipelines" ].

Definition pipelines_heading_cell : cell :=
  MarkdownCell pipelines_heading_source false.

Definition pipelines_source : list string :=
  [ "### Preprocessing"
  ; ""
  ; "The data was ingested and preprocessed in several steps:"
  ; ""
  ; ("- **Verify and clean up the data**: training data and validation data are different, as one is separated by `;;;` and one is separated by a new line. Moreover, there are several samples that are mislabeled into " +:+ dq +:+ "O O" +:+ dq +:+ ", when it should have been " +:+ dq +:+ "O" +:+ dq +:+ ". In this case, we simply replace with the correct labels.")
  ; "- **Read the data into sentences (or phrases)**: In order to tokenize and train the data effectively, it needs to be transformed into sentences or phrases. To do this, we use the comma and the default separator (`;;;` or `\n`) to group words that belong in the same sentence together."
  ; ""
  ; "### Tokenization"
  ; ""
  ; ("The data is tokenized using the `bert-base-uncased` tokenizer from HuggingFace, which is a platform for building, training, and deploying machine learning models, particularly focusing on pre-trained models like transformers. With this, we can transform the sentence into even futher broken-down pieces of sub-words. For example, the sentence *" +:+ dq +:+ "He said a proposal last month by EU Farm Commissioner Franz Fischler to ban sheep brains spleens and spinal cords from the human and animal food chains was a highly specific and precautionary move to protect human health '" +:+ dq +:+ "* can be tokenized into: ")
  ; ""
  ; "```raw"
  ; "['he', 'said', 'a', 'proposal', 'last', 'month', 'by', 'eu', 'farm', 'commissioner', 'franz', 'fis', '##ch', '##ler', 'to', 'ban', 'sheep', 'brains', 'sp', '##leen', '##s', 'and', 'spinal', 'cords', 'from', 'the', 'human', 'and', 'animal', 'food', 'chains', 'was', 'a', 'highly', 'specific', 'and', 'pre', '##ca', '##ution', '##ary', 'move', 'to', 'protect', 'human', 'health', '.']"
  ; "```"
  ; ""
  ; ("In this example, we can see that the word " +:+ dq +:+ "precautionary" +:+ dq +:+ " is split into 4 sub-words: `'pre', '##ca', '##ution', '##ary'`.")
  ; ""
  ; "### BERT Fine-tuning"
  ; ""
  ; "We use the same model `bert-base-uncased` for fine-tuning of the NER training dataset. The fine-tuning process can be summarized as follows:"
  ; ""
  ; "- Optimization Setup: We define the optimizer `AdamW` with the following parameters:"
  ; ""
  ; "  - Learning rate: $5e-5$. We also set up a learning rate scheduler to adjust the learning rate based on the number of warmup steps and total training steps."
  ; "  - Adam $\epsilon$: $1e-8$"
  ; "  - Weight decay: $0.0$"
  ; ""
  ; "- Training Loop: Iterate over the dataset for 10 epochs. During each batch, the following steps are executed:"
  ; ""
  ; "  - Forward pass: Compute the model's output and loss."
  ; "  - Backward pass: Compute the gradient of the loss with respect to model parameters."
  ; "  - Gradient Clipping: Clip gradients to a maximum norm to prevent exploding gradients."
  ; "  - Optimization Step: Update model parameters using the optimizer."
  ; "  - Learning Rate Scheduling: Update the learning rate based on the predefined schedule."
  ; "  - Zero the gradients to prepare for the next step." ].

Definition pipelines_cell : cell :=
  MarkdownCell pipelines_source false.

Definition analysis_heading_source : list string :=
  [ "## Analysis" ].

Definition analysis_heading_cell : cell :=
  MarkdownCell analysis_heading_source false.

Definition results_source : list string :=
  [ "### Results"
  ; ""
  ; "After the fine-tuning process, we evaluate the model on the validation dataset. The following results are obtained in @tbl-general-results and @tbl-detail-results:"
  ; ""
  ; ""
  ; "| Metric    | Value  |"
  ; "|-----------|--------|"
  ; "| Accuracy  | 96.18% |"
  ; "| Precision | 78.03% |"
  ; "| Recall    | 82.56% |"
  ; "| F1        | 80.23% |"
  ; ""
  ; (": Accuracy, Precision, Recall and F1-score on validation dataset. {#tbl-general-results" +:+ dq +:+ "}")
  ; ""
  ; ""
  ; "| Class | Precision | Recall | F1-Score | Support |"
  ; "|-------|-----------|--------|----------|---------|"
  ; "| LOC   | 0.85      | 0.91   | 0.88     | 1837    |"
  ; "| MISC  | 0.87      | 0.83   | 0.85     | 922     |"
  ; "| ORG   | 0.59      | 0.67   | 0.63     | 1341    |"
  ; "| PER   | 0.82      | 0.85   | 0.83     | 1846    |"
  ; ""
  ; (": Detailed Metrics by Class. {#tbl-detail-results" +:+ dq +:+ "}") ].

Definition results_cell : cell :=
  MarkdownCell results_source false.

Definition discussion_source : list string :=
  [ "### Discussion"
  ; ""
  ; ""
  ; "The fine-tuning of BERT for Named Entity Recognition (NER) classification has yielded promising results, as evidenced by the metrics presented in the general and detailed results tables. Particularly, when looking at different classes, we can see that: "
  ; ""
  ; "- **Location (LOC)** entities achieved high precision and recall, leading to an F1 score of 0.88. This indicates the model's strong capability in identifying geographical entities, likely due to distinct contextual and syntactical patterns associated with such entities."
  ; ""
  ; "- **Miscellaneous (MISC)** entities also showed strong performance with an F1 score of 0.85. The precision and recall balance suggests that the model is reasonably effective in identifying entities that do not fall into the more standard categories."
  ; ""
  ; "- **Organizations (ORG)** is not very high at 0.63, as the lowest precision and F1 score among the categories. This could be due to the diverse nature of organization names and possible overlaps with other entity types, indicating a need for model improvement in this area."
  ; ""
  ; "- **Person (PER)** names were well-recognized, with an F1 score of 0.83, reflecting the model's effectiveness in identifying individual names, possibly due to clear patterns and contextual cues." ].

Definition discussion_cell : cell :=
  MarkdownCell discussion_source true.

Definition conclusion_source : list string :=
  [ "## Conclusion"
  ; ""
  ; "In this project, we have applied deep transfer learning and fine-tuning BERT for the task of Name Entity Recognition. The fine-tuned BERT model demonstrates strong potential in NER tasks, with particularly impressive results in identifying LOC and PER entities. The relatively lower performance on ORG entities suggests an area for further model refinement. Future work could explore more advanced techniques for handling ambiguous entities, additional contextual features, or more sophisticated post-processing rules to improve precision and recall across all entity types." ].

Definition conclusion_cell : cell :=
  MarkdownCell conclusion_source true.

Definition report_metadata : json :=
  JObj [ ("kernelspec",
          JObj [ ("display_name", JStr "Python 3")
               ; ("language", JStr "python")
               ; ("name", JStr "python3") ])
       ; ("language_info",
          JObj [ ("codemirror_mode",
                  JObj [ ("name", JStr "ipython"); ("version", JNum 3) ])
               ; ("file_extension", JStr ".py")
               ; ("mimetype", JStr "text/x-python")
               ; ("name", JStr "python")
               ; ("nbconvert_exporter", JStr "python")
               ; ("pygments_lexer", JStr "ipython3")
               ; ("version", JStr "3.10.13") ]) ].

(** [report/report.ipynb]. *)
Definition report : notebook :=
  {| cells := [ title_cell; page_break_cell; config_cell; introduction_cell
              ; pipelines_heading_cell; pipelines_cell
              ; analysis_heading_cell; results_cell; discussion_cell
              ; conclusion_cell ];
     metadata := report_metadata;
     nbformat := 4;
     nbformat_minor := 2 |}.

Definition markdown_lines (nb : notebook) : list string :=
  concat (map source (List.filter is_markdown (cells nb))).

Definition code_cells (nb : notebook) : list cell :=
  List.filter is_code (cells nb).

End Notebook.

(** ** The code cell *)

Module ConfigCell.
Import Text.

(** *** Syntax

    Values a statement of the cell can write: the literals of its
    right-hand sides, and the module and module-member objects its
    imports bind. *)
Inductive value :=
| VInt (n : Z)
| VStr (s : string)
| VList (items : list value)
| VModule (name : string)
| VMember (modname name : string)
| VBool (b : bool).

(** The statement forms the cell is written in. *)
Inductive stmt :=
| SConfig (cls trait : string) (v : value)
    (** [%config cls.trait = v] *)
| SImport (modname alias : string)
    (** [import modname as alias] *)
| SFromImport (modname name : string)
    (** [from modname import name] *)
| SSetItem (obj attr key : string) (v : value)
    (** [obj.attr['key'] = v] *)
| SAssign (x : string) (v : value)
    (** [x = v] *)
| SMatplotlib (gui : string).
    (** [%matplotlib gui] *)

(** *** Reading the statements off the source lines *)

Definition is_ident_char (c : ascii) : bool := is_alpha c || is_digit c.

Definition is_ident (s : string) : bool :=
  match s with
  | EmptyString => false
  | String c _ => is_alpha c && all_chars is_ident_char s
  end.

Definition is_dotted (s : string) : bool :=
  forallb is_ident (split_char "."%char s).

Definition parse_atom (s : string) : option value :=
  match parse_nat s with
  | Some n => Some (VInt (Z.of_N n))
  | None =>
      match strip_prefix "'" s with
      | Some r =>
          match strip_suffix "'" r with
          | Some body =>
              if has_char "'"%char body || has_char backslash body then None
              else Some (VStr body)
          | None => None
          end
      | None => None
      end
  end.

Fixpoint parse_atoms (ss : list string) : option (list value) :=
  match ss with
  | [] => Some []
  | s :: r =>
      match parse_atom (trim s), parse_atoms r with
      | Some v, Some vs => Some (v :: vs)
      | _, _ => None
      end
  end.

Definition parse_literal (s : string) : option value :=
  match strip_prefix "[" s with
  | Some r =>
      match strip_suffix "]" r with
      | Some body =>
          if is_blank body then Some (VList [])
          else option_map VList (parse_atoms (split_char ","%char body))
      | None => None
      end
  | None => parse_atom s
  end.

Definition parse_assignment (line : string) : option stmt :=
  match split_once " = " line with
  | Some (lhs, rhs) =>
      match parse_literal rhs with
      | Some v =>
          if is_ident lhs then Some (SAssign lhs v)
          else
            match split_once "['" lhs with
            | Some (target, rest) =>
                match split_once "." target, strip_suffix "']" rest with
                | Some (obj, attr), Some key =>
                    if is_ident obj && is_ident attr
                       && negb (has_char "'"%char key)
                    then Some (SSetItem obj attr key v) else None
                | _, _ => None
                end
            | None => None
            end
      | None => None
      end
  | None => None
  end.

Definition parse_stmt (line : string) : option stmt :=
  match strip_prefix "%config " line with
  | Some rest =>
      match split_once " = " rest with
      | Some (lhs, rhs) =>
          match split_once "." lhs, parse_literal rhs with
          | Some (cls, trait), Some v =>
              if is_ident cls && is_ident trait
              then Some (SConfig cls trait v) else None
          | _, _ => None
          end
      | None => None
      end
  | None =>
  match strip_prefix "%matplotlib " line with
  | Some gui => if is_ident gui then Some (SMatplotlib gui) else None
  | None =>
  match strip_prefix "import " line with
  | Some rest =>
      match split_once " as " rest with
      | Some (m, a) =>
          if is_dotted m && is_ident a then Some (SImport m a) else None
      | None => None
      end
  | None =>
  match strip_prefix "from " line with
  | Some rest =>
      match split_once " import " rest with
      | Some (m, n) =>
          if is_dotted m && is_ident n then Some (SFromImport m n) else None
      | None => None
      end
  | None => parse_assignment line
  end end end end.

(** The statements of a cell: one per non-blank line, [None] when a line
    is not of one of the forms above. *)
Fixpoint parse_cell (lines : list string) : option (list stmt) :=
  match lines with
  | [] => Some []
  | l :: r =>
      if is_blank l then parse_cell r
      else
        match parse_stmt l, parse_cell r with
        | Some s, Some ss => Some (s :: ss)
        | _, _ => None
        end
  end.

(** The nine statements of the cell, in order. *)
Definition config_stmts : list stmt :=
  [ SConfig "InlineBackend" "figure_formats" (VList [VStr "svg"])
  ; SImport "pandas" "pd"
  ; SImport "numpy" "np"
  ; SImport "matplotlib.pyplot" "plt"
  ; SFromImport "matplotlib.image" "imread"
  ; SImport "seaborn" "sns"
  ; SSetItem "plt" "rcParams" "font.family" (VStr "Latin Modern Roman")
  ; SAssign "DPI" (VInt 800)
  ; SMatplotlib "inline" ].

(** *** Classifying statements and lines *)

(** The display options a statement can set. *)
Inductive display_option := FigureFormat | Font | InlineBackendChoice.

Definition display_option_of (s : stmt) : option display_option :=
  match s with
  | SConfig cls trait _ =>
      if String.eqb cls "InlineBackend" && String.eqb trait "figure_formats"
      then Some FigureFormat else None
  | SSetItem _ attr key _ =>
      if String.eqb attr "rcParams" && String.eqb key "font.family"
      then Some Font else None
  | SMatplotlib gui =>
      if String.eqb gui "inline" then Some InlineBackendChoice else None
  | _ => None
  end.

Definition is_display_config (s : stmt) : bool :=
  match display_option_of s with Some _ => true | None => false end.

Definition is_import (s : stmt) : bool :=
  match s with
  | SImport _ _ | SFromImport _ _ => true
  | _ => false
  end.

Definition is_constant_binding (s : stmt) : bool :=
  match s with
  | SAssign _ (VInt _) | SAssign _ (VStr _) => true
  | _ => false
  end.

(** A literal: an integer, a string, or a list of literals. *)
Fixpoint is_literal (v : value) : bool :=
  match v with
  | VInt _ | VStr _ => true
  | VList items => forallb is_literal items
  | _ => false
  end.

(** The value a statement assigns, if it assigns one. *)
Definition assigned_value (s : stmt) : option value :=
  match s with
  | SConfig _ _ v => Some v
  | SSetItem _ _ _ v => Some v
  | SAssign _ v => Some v
  | _ => None
  end.

(** Keywords that open a compound statement or transfer control. *)
Definition control_keywords : list string :=
  [ "if"; "elif"; "else"; "for"; "while"; "try"; "except"; "finally"
  ; "with"; "def"; "class"; "return"; "yield"; "break"; "continue"
  ; "raise"; "assert"; "lambda"; "async"; "await"; "match"; "case" ].

Fixpoint leading_word (s : string) : string :=
  match s with
  | String c r => if is_ident_char c then String c (leading_word r)
                  else EmptyString
  | EmptyString => EmptyString
  end.

Definition is_control_flow (line : string) : bool :=
  existsb (String.eqb (leading_word (drop_spaces line))) control_keywords.

(** A call needs an opening parenthesis. *)
Definition has_call (line : string) : bool := has_char "("%char line.

(** A line of code carries logic when it is not blank and is none of the
    simple statement forms, or is one that computes: control flow or a
    call. *)
Definition is_logic_line (line : string) : bool :=
  negb (is_blank line)
  && (match parse_stmt line with Some _ => false | None => true end
      || is_control_flow line || has_call line).

Definition logic_line_count (nb : Notebook.notebook) : nat :=
  length (List.filter is_logic_line
            (concat (map Notebook.source (Notebook.code_cells nb)))).

End ConfigCell.

(** ** Running the code cell *)

Module Session.
Import Text ConfigCell.

(** How an import fails on an installation: the module, or a package
    above it, is not there; or it is there and its own code gives up, as
    pandas does when numpy is missing. *)
Inductive import_failure :=
| NotFound (name : string)
| Broken (name : string).

(** What the cell relies on from the installation: the modules the
    interpreter can import, and how the import of any other module
    fails. *)
Record Kernel := {
  importable : gset string;
  import_failure_of : string -> import_failure }.

(** The state of a kernel session a cell can act on. *)
Record State := {
  config : gmap (string * string) value;
    (** traits set through [%config], by class and trait name; the
        dict-valued trait [InlineBackend.rc] is at its default, the empty
        dict, in the sessions of this development *)
  rcParams : gmap string value;
    (** matplotlib's runtime configuration *)
  user_ns : gmap string value;
    (** the names bound in the user namespace; the kernel's own binding of
        [get_ipython] stands where the session has not rebound it *)
  backend : option string;
    (** the backend selected with [%matplotlib] *)
  stdout : list string
    (** what the session has written to its output streams *) }.

Inductive exn :=
| SyntaxError
| ModuleNotFoundError (name : string)
| ImportError (name : string)
| NameError (name : string)
| AttributeError (obj attr : string)
| TypeError (name : string)
| ValueError (key : string)
| KeyError (key : string).

Definition result := sum exn State.

Definition bind (r : result) (f : State -> result) : result :=
  match r with
  | inl e => inl e
  | inr st => f st
  end.

Notation "r >>= f" := (bind r f) (at level 50, left associativity).

Definition set_config (f : gmap (string * string) value -> gmap (string * string) value)
                      (st : State) : State :=
  {| config := f (config st); rcParams := rcParams st;
     user_ns := user_ns st; backend := backend st; stdout := stdout st |}.

Definition set_rcParams (f : gmap string value -> gmap string value)
                        (st : State) : State :=
  {| config := config st; rcParams := f (rcParams st);
     user_ns := user_ns st; backend := backend st; stdout := stdout st |}.

Definition set_user_ns (f : gmap string value -> gmap string value)
                       (st : State) : State :=
  {| config := config st; rcParams := rcParams st;
     user_ns := f (user_ns st); backend := backend st; stdout := stdout st |}.

Definition set_backend (b : option string) (st : State) : State :=
  {| config := config st; rcParams := rcParams st;
     user_ns := user_ns st; backend := b; stdout := stdout st |}.

(** The module a statement needs the interpreter to find: the one an
    import names, and matplotlib itself for the [%matplotlib] magic. *)
Definition required_module (s : stmt) : option string :=
  match s with
  | SImport m _ => Some m
  | SFromImport m _ => Some m
  | SMatplotlib _ => Some "matplotlib"
  | _ => None
  end.

Definition required_modules (prog : list stmt) : list string :=
  omap required_module prog.

(** The installation has every module the program needs. *)
Definition provides (k : Kernel) (prog : list stmt) : Prop :=
  Forall (fun m => m ∈ importable k) (required_modules prog).

Definition raise_import (f : import_failure) : exn :=
  match f with
  | NotFound n => ModuleNotFoundError n
  | Broken n => ImportError n
  end.

(** Finding a module: the statement goes on with [next] when the
    installation has the module, and raises as the installation says
    otherwise. *)
Definition import_module (k : Kernel) (m : string) (next : result) : result :=
  if decide (m ∈ importable k) then next
  else inl (raise_import (import_failure_of k m)).

(** *** Magic lines

    A line [%name args] runs as [get_ipython().run_line_magic(name, args)]:
    the name [get_ipython] is looked up in the namespace and what it is
    bound to is called.  A value that is not the accessor cannot stand in
    for it. *)
Definition is_shell_accessor (v : value) : bool :=
  match v with
  | VMember m n =>
      (String.eqb m "IPython" || String.eqb m "IPython.core.getipython")
      && String.eqb n "get_ipython"
  | _ => false
  end.

(** The session has not rebound [get_ipython] to something else. *)
Definition shell_ok (st : State) : bool :=
  match user_ns st !! "get_ipython" with
  | None => true
  | Some v => is_shell_accessor v
  end.

Definition run_line_magic (st : State) (next : result) : result :=
  if shell_ok st then next else inl (TypeError "get_ipython").

(** *** matplotlib's parameters

    [rcParams] is an attribute of [matplotlib] and of
    [matplotlib.pyplot]; both name the same store. *)
Definition has_rcParams (modname attr : string) : bool :=
  (String.eqb modname "matplotlib.pyplot" || String.eqb modname "matplotlib")
  && String.eqb attr "rcParams".

Definition nonempty (s : string) : bool :=
  match s with EmptyString => false | _ => true end.

(** An item of a string list: a string as it is, an integer as its
    decimal text. *)
Definition string_item (v : value) : option string :=
  match v with
  | VStr s => Some s
  | VInt n => Some (pretty n)
  | _ => None
  end.

Fixpoint string_items (vs : list value) : option (list string) :=
  match vs with
  | [] => Some []
  | v :: r =>
      match string_item v, string_items r with
      | Some s, Some ss => Some (s :: ss)
      | _, _ => None
      end
  end.

(** The validator of a string-list parameter: a string is cut at its
    commas into trimmed, non-empty items, so that a single name becomes a
    list of one; a list keeps its non-empty items. *)
Definition validate_stringlist (v : value) : option value :=
  match v with
  | VStr s =>
      Some (VList (map VStr (List.filter nonempty
                               (map trim (split_char ","%char s)))))
  | VList vs =>
      match string_items vs with
      | Some ss => Some (VList (map VStr (List.filter nonempty ss)))
      | None => None
      end
  | _ => None
  end.

(** What [rcParams] stores for a key: [font.family] is a string list. *)
Definition rc_validate (key : string) (v : value) : option value :=
  if String.eqb key "font.family" then validate_stringlist v else Some v.

(** *** The [%matplotlib] magic

    The matplotlib backend of a GUI name. *)
Definition backends : list (string * string) :=
  [ ("tk", "TkAgg"); ("gtk", "GTKAgg"); ("gtk3", "GTK3Agg")
  ; ("gtk4", "GTK4Agg"); ("wx", "WXAgg"); ("qt4", "Qt4Agg")
  ; ("qt5", "Qt5Agg"); ("qt6", "QtAgg"); ("qt", "Qt5Agg")
  ; ("osx", "MacOSX"); ("nbagg", "nbAgg"); ("webagg", "WebAgg")
  ; ("notebook", "nbAgg"); ("agg", "agg"); ("svg", "svg"); ("pdf", "pdf")
  ; ("ps", "ps"); ("inline", "module://matplotlib_inline.backend_inline")
  ; ("ipympl", "module://ipympl.backend_nbagg")
  ; ("widget", "module://ipympl.backend_nbagg") ].

Definition backend_of (gui : string) : option string :=
  match List.find (fun p => String.eqb (fst p) gui) backends with
  | Some p => Some (snd p)
  | None => None
  end.

(** Activating a backend: matplotlib is made interactive, the backend is
    written to [rcParams] and selected.  (The inline backend then applies
    [InlineBackend.rc] to [rcParams]: no entry, at its default.) *)
Definition activate (gui b : string) (st : State) : State :=
  set_backend (Some gui)
    (set_rcParams (fun rc => <["backend" := VStr b]>
                               (<["interactive" := VBool true]> rc)) st).

(** *** One statement

    An import binds its alias to the module; an item assignment evaluates
    its target name in the namespace, then the attribute on the object
    found, then stores the validated item; a magic line goes through the
    shell. *)
Definition exec (k : Kernel) (s : stmt) (st : State) : result :=
  match s with
  | SConfig cls trait v =>
      run_line_magic st (inr (set_config (insert (cls, trait) v) st))
  | SImport m a =>
      import_module k m (inr (set_user_ns (insert a (VModule m)) st))
  | SFromImport m n =>
      import_module k m (inr (set_user_ns (insert n (VMember m n)) st))
  | SSetItem obj attr key v =>
      match user_ns st !! obj with
      | None => inl (NameError obj)
      | Some (VModule m) =>
          if has_rcParams m attr then
            match rc_validate key v with
            | Some w => inr (set_rcParams (insert key w) st)
            | None => inl (ValueError key)
            end
          else inl (AttributeError m attr)
      | Some _ => inl (AttributeError obj attr)
      end
  | SAssign x v => inr (set_user_ns (insert x v) st)
  | SMatplotlib gui =>
      run_line_magic st
        (import_module k "matplotlib"
           (match backend_of (lower gui) with
            | Some b => inr (activate (lower gui) b st)
            | None => inl (KeyError (lower gui))
            end))
  end.

Fixpoint run (k : Kernel) (prog : list stmt) (st : State) : result :=
  match prog with
  | [] => inr st
  | s :: rest => exec k s st >>= run k rest
  end.

(** Running source text: the lines are read as statements first. *)
Definition run_source (k : Kernel) (lines : list string) (st : State) : result :=
  match parse_cell lines with
  | Some prog => run k prog st
  | None => inl SyntaxError
  end.

(** Executing the code of the notebook's code cell: its statements, in
    order.  What the kernel does around a cell (the execution counter,
    the input history and its names [_i], [_ii], [_iii], [_i<n>]) is not
    part of the cell's code. *)
Definition run_cell (k : Kernel) (st : State) : result :=
  run_source k Notebook.config_source st.

(** The state the cell's statements leave behind when they run to the
    end. *)
Definition configured (st : State) : State :=
  {| config :=
       <[("InlineBackend", "figure_formats") := VList [VStr "svg"]]> (config st);
     rcParams :=
       <["backend" := VStr "module://matplotlib_inline.backend_inline"]>
         (<["interactive" := VBool true]>
            (<["font.family" := VList [VStr "Latin Modern Roman"]]>
               (rcParams st)));
     user_ns :=
       <["DPI" := VInt 800]>
         (<["sns" := VModule "seaborn"]>
            (<["imread" := VMember "matplotlib.image" "imread"]>
               (<["plt" := VModule "matplotlib.pyplot"]>
                  (<["np" := VModule "numpy"]>
                     (<["pd" := VModule "pandas"]> (user_ns st))))));
     backend := Some "inline";
     stdout := stdout st |}.


(** The packages above a dotted module name and the name itself, outermost
    first: [a], [a.b], [a.b.c]. *)
Fixpoint dotted_prefixes (parts : list string) (above : string) : list string :=
  match parts with
  | [] => []
  | p :: r =>
      let here := match above with
                  | EmptyString => p
                  | _ => above +:+ "." +:+ p
                  end in
      here :: dotted_prefixes r here
  end.

(** An import brings in the packages above a module first: where a
    module cannot be found, the error names the outermost of them that
    is missing. *)
Definition missing_in (have : gset string) (m : string) : import_failure :=
  match List.find (fun p => negb (bool_decide (p ∈ have)))
                  (dotted_prefixes (split_char "."%char m) EmptyString) with
  | Some p => NotFound p
  | None => NotFound m
  end.

(** A fresh session, an installation with nothing to import, and one
    with the scientific stack. *)
Definition fresh : State :=
  {| config := ∅; rcParams := ∅; user_ns := ∅; backend := None; stdout := [] |}.

Definition bare_kernel : Kernel :=
  {| importable := ∅; import_failure_of := missing_in ∅ |}.

Definition scientific_stack : gset string :=
  list_to_set [ "pandas"; "numpy"; "matplotlib"; "matplotlib.pyplot"
              ; "matplotlib.image"; "seaborn" ].

Definition full_kernel : Kernel :=
  {| importable := scientific_stack;
     import_failure_of := missing_in scientific_stack |}.

(** A session of a fresh kernel whose figure formats, font family and
    DPI binding have the given initial values, if any. *)
Definition session (formats font dpi : option value) : State :=
  {| config := partial_alter (fun _ => formats) ("InlineBackend", "figure_formats") ∅;
     rcParams := partial_alter (fun _ => font) "font.family" ∅;
     user_ns := partial_alter (fun _ => dpi) "DPI" ∅;
     backend := None;
     stdout := [] |}.

(** A session in which [get_ipython] is rebound to an integer. *)
Definition rebound : State :=
  set_user_ns (insert "get_ipython" (VInt 3)) fresh.

End Session.

(** ** The results tables *)

Module Metrics.
Import Text.

Local Open Scope Q_scope.

(** *** Markdown tables *)

Record table := { header : list string; rows : list (list string) }.

Definition is_table_line (l : string) : bool := String.prefix "|" l.

(** The cells of a table line: the fields between the bars, trimmed.
    The fields before the first bar and after the last are dropped. *)
Definition row_cells (l : string) : list string :=
  map trim (removelast (tl (split_char "|"%char l))).

(** Maximal runs of consecutive table lines. *)
Fixpoint table_blocks (lines : list string) (cur : list string)
  : list (list string) :=
  match lines with
  | [] => match cur with [] => [] | _ => [List.rev cur] end
  | l :: r =>
      if is_table_line l then table_blocks r (l :: cur)
      else match cur with
           | [] => table_blocks r []
           | _ => List.rev cur :: table_blocks r []
           end
  end.

(** A block is a header line, a separator line and the data lines. *)
Definition table_of_block (blk : list string) : option table :=
  match blk with
  | h :: _ :: body => Some {| header := row_cells h; rows := map row_cells body |}
  | _ => None
  end.

Definition tables (lines : list string) : list table :=
  omap table_of_block (table_blocks lines []).

Definition find_table (hdr : list string) (ts : list table) : option table :=
  List.find (fun t => bool_decide (header t = hdr)) ts.

(** *** The general results table *)

Definition general_table : option table :=
  find_table ["Metric"; "Value"] (tables Notebook.results_source).

(** A percentage such as [78.03%], in percent. *)
Definition parse_percent (s : string) : option Q :=
  match strip_suffix "%" s with
  | Some d => parse_decimal d
  | None => None
  end.

Definition lookup_row (name : string) (t : table) : option (list string) :=
  List.find (fun r => match r with
                      | c :: _ => String.eqb c name
                      | [] => false
                      end) (rows t).

(** The value the general table reports for a metric. *)
Definition general_metric (name : string) : option Q :=
  match general_table with
  | Some t =>
      match lookup_row name t with
      | Some [_; v] => parse_percent v
      | _ => None
      end
  | None => None
  end.

(** *** The per-class table *)

Record class_metrics := {
  cls : string;
  precision : Q;
  recall : Q;
  f1 : Q;
  support : N }.

Definition parse_class_row (r : list string) : option class_metrics :=
  match r with
  | [c; p; rc; f; s] =>
      match parse_decimal p, parse_decimal rc, parse_decimal f, parse_nat s with
      | Some p, Some rc, Some f, Some s =>
          Some {| cls := c; precision := p; recall := rc; f1 := f; support := s |}
      | _, _, _, _ => None
      end
  | _ => None
  end.

Fixpoint parse_class_rows (rs : list (list string)) : option (list class_metrics) :=
  match rs with
  | [] => Some []
  | r :: rest =>
      match parse_class_row r, parse_class_rows rest with
      | Some m, Some ms => Some (m :: ms)
      | _, _ => None
      end
  end.

Definition detail_table : option table :=
  find_table ["Class"; "Precision"; "Recall"; "F1-Score"; "Support"]
             (tables Notebook.results_source).

Definition detail_rows : option (list class_metrics) :=
  match detail_table with
  | Some t => parse_class_rows (rows t)
  | None => None
  end.

Definition class_row (c : string) : option class_metrics :=
  match detail_rows with
  | Some rs => List.find (fun m => String.eqb (cls m) c) rs
  | None => None
  end.

(** *** The F1 formula of the report's Metrics section *)

(** [F1 = 2 * (Precision * Recall) / (Precision + Recall)]. *)
Definition harmonic_mean (p r : Q) : Q := 2 * (p * r) / (p + r).

(** Rounding to two decimals, halves upwards. *)
Definition round2 (q : Q) : Q := Qmake (Qfloor (q * 100 + (1 # 2))) 100.

(** [x] lies strictly within half a unit of the second decimal of [y]:
    every round-to-nearest rule sends [x] to [y]. *)
Definition rounds_to (x y : Q) : Prop := Qabs (x - y) < 5 # 1000.

(** The discussion's sentence on organisations. *)
Definition org_discussion : option string :=
  List.find (String.prefix "- **Organizations (ORG)**") Notebook.discussion_source.

End Metrics.

(** ** Labels and image links *)

Module Labels.
Import Text.

Definition categories : list string := ["PER"; "LOC"; "ORG"; "MISC"].

Definition is_category (c : string) : bool := existsb (String.eqb c) categories.

(** The BIO scheme: [O], or [B-] or [I-] followed by a category. *)
Definition is_bio_label (l : string) : bool :=
  String.eqb l "O"
  || match strip_prefix "B-" l with
     | Some c => is_category c
     | None =>
         match strip_prefix "I-" l with
         | Some c => is_category c
         | None => false
         end
     end.

(** The lines after the first one that [p] accepts. *)
Fixpoint after_line (p : string -> bool) (lines : list string) : list string :=
  match lines with
  | [] => []
  | l :: r => if p l then r else after_line p r
  end.

Fixpoint drop_blank_lines (lines : list string) : list string :=
  match lines with
  | l :: r => if is_blank l then drop_blank_lines r else lines
  | [] => []
  end.

Fixpoint leading_bullets (lines : list string) : list string :=
  match lines with
  | l :: r => if String.prefix "- " l then l :: leading_bullets r else []
  | [] => []
  end.

(** The term a definition bullet [- **term**: ...] defines. *)
Definition bullet_term (l : string) : option string :=
  match strip_prefix "- **" l with
  | Some r =>
      match split_once "**" r with
      | Some (t, _) => Some t
      | None => None
      end
  | None => None
  end.

(** The labels listed under the sentence that introduces them. *)
Definition ner_labels : list string :=
  omap bullet_term
    (leading_bullets
       (drop_blank_lines
          (after_line (String.prefix "Each word (or token) is assigned a NER label")
                      Notebook.introduction_source))).

Definition has_label (l : string) : bool := existsb (String.eqb l) ner_labels.

End Labels.

Module Images.
Import Text.

(** The targets of the image links [![alt](target)] of a line. *)
Fixpoint image_targets_from (fuel : nat) (s : string) : list string :=
  match fuel with
  | O => []
  | S n =>
      match split_once "![" s with
      | Some (_, r1) =>
          match split_once "](" r1 with
          | Some (_, r2) =>
              match split_once ")" r2 with
              | Some (target, r3) => target :: image_targets_from n r3
              | None => []
              end
          | None => []
          end
      | None => []
      end
  end.

Definition image_targets (s : string) : list string :=
  image_targets_from (String.length s) s.

Definition document_images (nb : Notebook.notebook) : list string :=
  flat_map image_targets (Notebook.markdown_lines nb).

Definition is_absolute (t : string) : bool := String.prefix "/" t.

Definition is_url (t : string) : bool := contains "://" t || String.prefix "data:" t.

(** Lines that embed an image by other means than a markdown link. *)
Definition has_html_image (l : string) : bool := contains "<img" l.

End Images.

(** ** The formulas of the Metrics section *)

Module Confusion.

Local Open Scope Q_scope.

(** The counts of a confusion matrix, as rationals: true positives [tp],
    true negatives [tn], false positives [fp], false negatives [fn]. *)

(** [Precision = TP / (TP + FP)]. *)
Definition precision_of (tp fp : Q) : Q := tp / (tp + fp).

(** [Recall = TP / (TP + FN)]. *)
Definition recall_of (tp fn : Q) : Q := tp / (tp + fn).

(** [Accuracy = (TP + TN) / (TP + TN + FP + FN)]. *)
Definition accuracy_of (tp tn fp fn : Q) : Q := (tp + tn) / (tp + tn + fp + fn).

(** [F1], by the formula of the section, from the counts. *)
Definition f1_of (tp fp fn : Q) : Q :=
  Metrics.harmonic_mean (precision_of tp fp) (recall_of tp fn).

End Confusion.

(** ** What the statements of the cell bind *)

Module Dataflow.
Import Text ConfigCell Session.




End Dataflow.

(** ** Cross-checks within the document *)

Module Document.
Import Text.

(** *** The dataset table *)

Definition dataset_table : option Metrics.table :=
  Metrics.find_table ["Dataset"; "No. of words/labels"; "No. of sentences/phrases"]
                     (Metrics.tables Notebook.introduction_source).

(** The number of sentences the dataset table gives for a dataset. *)
Definition dataset_sentences (name : string) : option N :=
  match dataset_table with
  | Some t =>
      match Metrics.lookup_row name t with
      | Some [_; _; n] => parse_nat n
      | _ => None
      end
  | None => None
  end.

(** The sum of the Support column of the per-class table. *)
Definition total_support : option N :=
  match Metrics.detail_rows with
  | Some rs => Some (fold_right N.add 0%N (map Metrics.support rs))
  | None => None
  end.

(** *** The tokenization example *)

Definition to_lower (c : ascii) : ascii :=
  let n := nat_of_ascii c in
  if (65 <=? n)%nat && (n <=? 90)%nat then ascii_of_nat (n + 32) else c.

Fixpoint lowercase (s : string) : string :=
  match s with
  | EmptyString => EmptyString
  | String c r => String (to_lower c) (lowercase r)
  end.

(** A quoted token ['tok'] without its quotes. *)
Definition unquote (s : string) : option string :=
  match strip_prefix "'" s with
  | Some r => strip_suffix "'" r
  | None => None
  end.

Fixpoint unquote_all (ss : list string) : option (list string) :=
  match ss with
  | [] => Some []
  | s :: r =>
      match unquote (trim s), unquote_all r with
      | Some t, Some ts => Some (t :: ts)
      | _, _ => None
      end
  end.

(** The token list of the example: the line of the raw block, a list
    literal of quoted tokens. *)
Definition example_tokens : option (list string) :=
  match List.find (String.prefix "['") Notebook.pipelines_source with
  | Some l =>
      match strip_prefix "[" l with
      | Some r =>
          match strip_suffix "]" r with
          | Some body => unquote_all (split_char ","%char body)
          | None => None
          end
      | None => None
      end
  | None => None
  end.

(** The sentence of the example: the text between the quotes of the
    emphasised span of the paragraph that introduces it. *)
Definition example_sentence : option string :=
  match List.find (contains ("*" +:+ dq)) Notebook.pipelines_source with
  | Some l =>
      match split_once ("*" +:+ dq) l with
      | Some (_, r) =>
          match split_once (dq +:+ "*") r with
          | Some (s, _) => Some s
          | None => None
          end
      | None => None
      end
  | None => None
  end.

(** A sub-word piece continues the word before it when it starts with
    [##]; [merge_pieces] glues the pieces of each word together. *)
Definition is_continuation (t : string) : bool := String.prefix "##" t.

Definition piece_text (t : string) : string :=
  match strip_prefix "##" t with Some r => r | None => t end.

(** The decoder keeps the word in progress in [cur]: a continuation
    piece is appended to it, any other token closes it and starts the
    next word. *)
Fixpoint merge_pieces_from (toks : list string) (cur : option string)
  : list string :=
  match toks with
  | [] => match cur with Some w => [w] | None => [] end
  | t :: r =>
      if is_continuation t then
        merge_pieces_from r
          (Some (match cur with
                 | Some w => w +:+ piece_text t
                 | None => piece_text t
                 end))
      else
        match cur with
        | Some w => w :: merge_pieces_from r (Some t)
        | None => merge_pieces_from r (Some t)
        end
  end.

Definition merge_pieces (toks : list string) : list string :=
  merge_pieces_from toks None.

(** *** Cross-references *)

Definition is_label_char (c : ascii) : bool :=
  is_alpha c || is_digit c || Ascii.eqb c "-"%char.

Fixpoint take_while (p : ascii -> bool) (s : string) : string :=
  match s with
  | String c r => if p c then String c (take_while p r) else EmptyString
  | EmptyString => EmptyString
  end.

(** The cross-references [@name] of a line. *)
Fixpoint references_from (fuel : nat) (s : string) : list string :=
  match fuel with
  | O => []
  | S n =>
      match split_once "@" s with
      | Some (_, r) => take_while is_label_char r :: references_from n r
      | None => []
      end
  end.

Definition references (s : string) : list string :=
  references_from (String.length s) s.

Definition nonempty_name (s : string) : bool :=
  match s with EmptyString => false | _ => true end.

(** The labels a line defines.  An attribute block [{#name ...}] defines
    [name] when the name is followed by a blank or by the closing brace;
    a block in which anything else follows the name is not an attribute
    block and defines nothing. *)
Definition label_of (r : string) : option string :=
  let name := take_while is_label_char r in
  match strip_prefix name r with
  | Some (String c _) =>
      if nonempty_name name && (is_space c || Ascii.eqb c "}"%char)
      then Some name else None
  | _ => None
  end.

Fixpoint labels_from (fuel : nat) (s : string) : list string :=
  match fuel with
  | O => []
  | S n =>
      match split_once "{#" s with
      | Some (_, r) =>
          match label_of r with
          | Some name => name :: labels_from n r
          | None => labels_from n r
          end
      | None => []
      end
  end.

Definition labels (s : string) : list string := labels_from (String.length s) s.

Definition document_references (nb : Notebook.notebook) : list string :=
  flat_map references (Notebook.markdown_lines nb).

Definition document_labels (nb : Notebook.notebook) : list string :=
  flat_map labels (Notebook.markdown_lines nb).

End Document.

(** * Properties *)

Import Text Notebook ConfigCell Session Metrics Labels Images Dataflow.

(** ** Text utilities *)

Lemma strip_prefix_app (p r : string) : strip_prefix p (p +:+ r) = Some r.
Proof.
  induction p as [|a p IH]; [reflexivity|].
  change (String a p +:+ r) with (String a (p +:+ r)). simpl.
  rewrite Ascii.eqb_refl. exact IH.
Qed.

Lemma strip_prefix_Some (p s r : string) :
  strip_prefix p s = Some r -> s = p +:+ r.
Proof.
  revert s. induction p as [|a p IH]; intros s H; simpl in H.
  - injection H as ->. reflexivity.
  - destruct s as [|b s]; [discriminate|].
    destruct (Ascii.eqb a b) eqn:E; [|discriminate].
    apply Ascii.eqb_eq in E. subst b. apply IH in H. subst s. reflexivity.
Qed.

Lemma strip_prefix_spec (p s r : string) :
  strip_prefix p s = Some r <-> s = p +:+ r.
Proof.
  split; [apply strip_prefix_Some|]. intros ->. apply strip_prefix_app.
Qed.

Lemma existsb_eqb_In (x : string) (l : list string) :
  existsb (String.eqb x) l = true <-> In x l.
Proof.
  rewrite existsb_exists. split.
  - intros [y [Hy E]]. apply String.eqb_eq in E. now subst.
  - intros H. exists x. split; [exact H | apply String.eqb_refl].
Qed.

(** The boolean test of a label says what the BIO scheme says. *)
Lemma is_bio_label_spec (l : string) :
  is_bio_label l = true <->
  l = "O" \/ exists c, In c categories /\ (l = "B-" +:+ c \/ l = "I-" +:+ c).
Proof.
  unfold is_bio_label, is_category. rewrite orb_true_iff, String.eqb_eq.
  split.
  - intros [H|H]; [now left|right].
    destruct (strip_prefix "B-" l) as [c|] eqn:EB.
    + exists c. apply existsb_eqb_In in H. apply strip_prefix_Some in EB. auto.
    + destruct (strip_prefix "I-" l) as [c|] eqn:EI; [|discriminate].
      exists c. apply existsb_eqb_In in H. apply strip_prefix_Some in EI. auto.
  - intros [H|[c [Hc [H|H]]]]; [now left| |]; right; subst l.
    + rewrite strip_prefix_app. now apply existsb_eqb_In.
    + replace (strip_prefix "B-" ("I-" +:+ c)) with (@None string) by reflexivity.
      rewrite strip_prefix_app. now apply existsb_eqb_In.
Qed.

Lemma forallb_Forall_true {A} (p : A -> bool) (l : list A) :
  forallb p l = true -> Forall (fun x => p x = true) l.
Proof.
  intros H. apply List.Forall_forall. intros x Hx.
  rewrite forallb_forall in H. apply H, Hx.
Qed.

(** ** The file layout *)

Lemma list_sum_cons (a : nat) (l : list nat) : list_sum (a :: l) = a + list_sum l.
Proof. reflexivity. Qed.

Lemma length_add_comma (ls : list string) : length (add_comma ls) = length ls.
Proof.
  induction ls as [|l r IH]; [reflexivity|].
  destruct r as [|l' r]; [reflexivity|].
  change (add_comma (l :: l' :: r)) with (l :: add_comma (l' :: r)).
  cbn [length]. f_equal. exact IH.
Qed.

Lemma length_member (ind : nat) (key : string) (body : list string) (last : bool) :
  length (member ind key body last) = length body.
Proof.
  unfold member. destruct last; [|rewrite length_add_comma];
    destruct body; reflexivity.
Qed.

(** A non-empty array takes its two brackets and the lines of its items. *)
Lemma length_render_array (ind : nat) (x : json) (items : list json) :
  length (render ind (JArr (x :: items))) =
  2 + list_sum (map (fun j => length (render (S ind) j)) (x :: items)).
Proof.
  cbn [render length map list_sum].
  rewrite !length_app, length_member. cbn [length].
  match goal with
  | |- context [length (?go items)] =>
      enough (H : forall l, length (go l) =
                            list_sum (map (fun j => length (render (S ind) j)) l))
  end.
  - rewrite H, list_sum_cons. lia.
  - induction l as [|y r IH]; [reflexivity|].
    cbn [map]. rewrite length_app, length_member, IH, list_sum_cons. reflexivity.
Qed.

(** A non-empty object, likewise. *)
Lemma length_render_object (ind : nat) (f : string * json)
      (fields : list (string * json)) :
  length (render ind (JObj (f :: fields))) =
  2 + list_sum (map (fun kv => length (render (S ind) (snd kv))) (f :: fields)).
Proof.
  destruct f as [k v].
  cbn [render length map list_sum snd].
  rewrite !length_app, length_member. cbn [length].
  match goal with
  | |- context [length (?go fields)] =>
      enough (H : forall l, length (go l) =
                            list_sum (map (fun kv => length (render (S ind) (snd kv))) l))
  end.
  - rewrite H, list_sum_cons. lia.
  - induction l as [|[k' v'] r IH]; [reflexivity|].
    cbn [map snd]. rewrite length_app, length_member, IH, list_sum_cons. reflexivity.
Qed.

Lemma length_source_entries (ls : list string) (nl : bool) :
  length (source_entries ls nl) = length ls.
Proof.
  induction ls as [|l r IH]; [reflexivity|].
  destruct r as [|l' r]; [reflexivity|].
  change (source_entries (l :: l' :: r) nl)
    with ((l +:+ String lf EmptyString) :: source_entries (l' :: r) nl).
  cbn [length]. f_equal. exact IH.
Qed.

(** A [source] array takes one line when the cell is empty, and its
    brackets and one line per entry otherwise. *)
Lemma length_render_source (ind : nat) (es : list string) :
  length es <= length (render ind (JArr (map JStr es))) <= length es + 2.
Proof.
  destruct es as [|e es]; [cbn; lia|].
  cbn [map]. rewrite length_render_array.
  assert (H : forall l, list_sum (map (fun j => length (render (S ind) j)) (map JStr l))
                        = length l).
  { induction l as [|y r IH]; [reflexivity|].
    cbn [map]. rewrite list_sum_cons, IH. reflexivity. }
  change (JStr e :: map JStr es) with (map JStr (e :: es)).
  rewrite H. lia.
Qed.

Lemma length_cell_line_kinds (c : cell) :
  length (cell_line_kinds c) = length (render 2 (cell_json c)).
Proof.
  unfold cell_line_kinds. rewrite !length_app, !repeat_length.
  enough (length (source c) + 2 <= length (render 2 (cell_json c))) by lia.
  destruct c as [s nl | n o s nl]; unfold cell_json;
    rewrite length_render_object; cbn [map snd source];
    rewrite !list_sum_cons;
    pose proof (length_render_source 3 (source_entries s nl)) as H;
    rewrite length_source_entries in H;
    revert H; generalize (render 3 (JArr (map JStr (source_entries s nl))));
    intros a H; try generalize (render 3 (JArr o)); intros;
    cbn [render length list_sum fold_right]; lia.
Qed.

(** The kinds account for every line of the file. *)
Lemma length_file_line_kinds (nb : notebook) :
  cells nb <> [] ->
  length (file_line_kinds nb) = length (file_lines nb).
Proof.
  intros Hne. unfold file_line_kinds, file_lines, notebook_json.
  rewrite length_render_object. cbn [map snd]. rewrite !list_sum_cons.
  destruct (cells nb) as [|c cs]; [congruence|].
  change (map cell_json (c :: cs)) with (cell_json c :: map cell_json cs).
  rewrite length_render_array.
  change (cell_json c :: map cell_json cs) with (map cell_json (c :: cs)).
  assert (H : forall l, list_sum (map (fun j => length (render 2 j)) (map cell_json l))
                        = length (concat (map cell_line_kinds l))).
  { induction l as [|y r IH]; [reflexivity|].
    cbn [map concat]. rewrite length_app, length_cell_line_kinds, list_sum_cons, IH.
    reflexivity. }
  rewrite H, !length_app, !repeat_length.
  generalize (length (concat (map cell_line_kinds (c :: cs)))).
  generalize (render 1 (metadata nb)). intros md n.
  cbn [render length list_sum fold_right]. lia.
Qed.

(** On the report, the lines the kinds mark as source text are the source
    entries of the cells, in order. *)
Lemma text_lines_report :
  text_lines report =
  flat_map (fun c => entry_lines (source_entries (source c) (final_newline c)))
           (cells report).
Proof. vm_compute. reflexivity. Qed.

(** Where things stand in the file: the source of the code cell on lines
    23 to 36, the rows of the general results table from line 173, the
    rows of the per-class table from line 183, and the closing bracket on
    line 240, the last. *)
Lemma file_line_positions :
  take 14 (drop 22 (file_lines report)) =
    entry_lines (source_entries config_source false) /\
  file_lines report !! 172%nat =
    Some (spaces 4 +:+ quote ("| Accuracy  | 96.18% |" +:+ String lf EmptyString) +:+ ",") /\
  file_lines report !! 182%nat =
    Some (spaces 4 +:+ quote ("| LOC   | 0.85      | 0.91   | 0.88     | 1837    |"
                               +:+ String lf EmptyString) +:+ ",") /\
  file_lines report !! 239%nat = Some "}" /\
  file_lines report !! 240%nat = None.
Proof. repeat (split; [vm_compute; reflexivity|]). vm_compute; reflexivity. Qed.

(** C5, as the file has it: the file does not total 241 lines. *)
Lemma report_is_not_241_lines : length (file_lines report) <> 241.
Proof. vm_compute. discriminate. Qed.

(** C5, amended: the file totals 240 lines: 139 lines of markdown text and
    54 lines of markdown cell wrappers, 14 source lines and 8 wrapper
    lines of the one code cell, and 25 lines of notebook envelope; no line
    of code carries logic. *)
Theorem report_line_budget :
  length (file_lines report) = 240 /\
  length (file_line_kinds report) = length (file_lines report) /\
  count_kind MarkdownText (file_line_kinds report) = 139 /\
  count_kind MarkdownFraming (file_line_kinds report) = 54 /\
  count_kind CodeText (file_line_kinds report) = 14 /\
  count_kind CodeFraming (file_line_kinds report) = 8 /\
  count_kind Envelope (file_line_kinds report) = 25 /\
  length (code_cells report) = 1 /\
  logic_line_count report = 0.
Proof.
  split; [vm_compute; reflexivity|].
  split; [apply length_file_line_kinds; discriminate|].
  repeat (split; [vm_compute; reflexivity|]).
  vm_compute; reflexivity.
Qed.

(** ** The tables *)

(** C1: the F1 of the general results table (80.23%) is the harmonic mean
    2*P*R/(P+R) of the table's precision (78.03%) and recall (82.56%),
    computed over the rationals and rounded to two decimals. *)
Theorem general_f1_is_rounded_harmonic_mean :
  exists p r f : Q,
    general_metric "Precision" = Some p /\
    general_metric "Recall" = Some r /\
    general_metric "F1" = Some f /\
    p = 7803 # 100 /\ r = 8256 # 100 /\ f = 8023 # 100 /\
    (round2 (harmonic_mean p r) == f)%Q /\
    rounds_to (harmonic_mean p r) f.
Proof.
  exists (7803 # 100), (8256 # 100), (8023 # 100).
  split; [vm_compute; reflexivity|].
  split; [vm_compute; reflexivity|].
  split; [vm_compute; reflexivity|].
  split; [reflexivity|]. split; [reflexivity|]. split; [reflexivity|].
  split; vm_compute; reflexivity.
Qed.

Lemma detail_rows_eq :
  detail_rows =
    Some [ {| cls := "LOC"; precision := 85 # 100; recall := 91 # 100;
              f1 := 88 # 100; support := 1837 |}
         ; {| cls := "MISC"; precision := 87 # 100; recall := 83 # 100;
              f1 := 85 # 100; support := 922 |}
         ; {| cls := "ORG"; precision := 59 # 100; recall := 67 # 100;
              f1 := 63 # 100; support := 1341 |}
         ; {| cls := "PER"; precision := 82 # 100; recall := 85 # 100;
              f1 := 83 # 100; support := 1846 |} ].
Proof. vm_compute. reflexivity. Qed.

(** C8: in every row of the per-class table (LOC, MISC, ORG, PER) the
    F1-Score is the harmonic mean of the row's precision and recall,
    computed over the rationals and rounded to two decimals. *)
Theorem class_f1_is_rounded_harmonic_mean :
  exists rows,
    detail_rows = Some rows /\
    map cls rows = ["LOC"; "MISC"; "ORG"; "PER"] /\
    Forall (fun m =>
              (round2 (harmonic_mean (precision m) (recall m)) == f1 m)%Q /\
              rounds_to (harmonic_mean (precision m) (recall m)) (f1 m))
           rows.
Proof.
  eexists. split; [exact detail_rows_eq|]. split; [reflexivity|].
  repeat (constructor; [split; vm_compute; reflexivity|]).
  constructor.
Qed.

(** C9: ORG has precision 0.59 and F1-Score 0.63, each strictly below the
    value of every other class of the per-class table, and the discussion
    calls ORG the lowest precision and F1 score among the categories. *)
Theorem org_has_lowest_precision_and_f1 :
  exists org rows line,
    detail_rows = Some rows /\
    length rows = 4 /\
    class_row "ORG" = Some org /\
    precision org = 59 # 100 /\ f1 org = 63 # 100 /\
    Forall (fun m =>
              cls m = "ORG" \/
              ((precision org < precision m)%Q /\ (f1 org < f1 m)%Q))
           rows /\
    length (List.filter (fun m => String.eqb (cls m) "ORG") rows) = 1 /\
    org_discussion = Some line /\
    contains "lowest precision and F1 score" line = true /\
    contains "0.63" line = true.
Proof.
  exists {| cls := "ORG"; precision := 59 # 100; recall := 67 # 100;
            f1 := 63 # 100; support := 1341 |}.
  eexists. eexists.
  split; [exact detail_rows_eq|].
  split; [reflexivity|].
  split; [vm_compute; reflexivity|].
  split; [reflexivity|]. split; [reflexivity|].
  split.
  { constructor; [right; split; vm_compute; reflexivity|].
    constructor; [right; split; vm_compute; reflexivity|].
    constructor; [left; reflexivity|].
    constructor; [right; split; vm_compute; reflexivity|].
    constructor. }
  split; [vm_compute; reflexivity|].
  split; [vm_compute; reflexivity|].
  split; vm_compute; reflexivity.
Qed.

(** ** Labels and images *)

Lemma ner_labels_eq :
  ner_labels =
    ["B-MISC"; "I-MISC"; "B-PER"; "I-PER"; "O"; "B-LOC"; "I-LOC"; "B-ORG"; "I-ORG"].
Proof. vm_compute. reflexivity. Qed.

(** C6: the report lists nine NER labels; each is O or a B- or I- prefix
    followed by one of PER, LOC, ORG, MISC; and every category occurs with
    both prefixes. *)
Theorem ner_labels_follow_bio_scheme :
  length ner_labels = 9 /\
  Forall (fun l =>
            l = "O" \/
            exists c, In c categories /\ (l = "B-" +:+ c \/ l = "I-" +:+ c))
         ner_labels /\
  Forall (fun c => In ("B-" +:+ c) ner_labels /\ In ("I-" +:+ c) ner_labels)
         categories.
Proof.
  split; [rewrite ner_labels_eq; reflexivity|]. split.
  - assert (H : forallb is_bio_label ner_labels = true) by (vm_compute; reflexivity).
    apply forallb_Forall_true in H.
    eapply List.Forall_impl; [|exact H].
    intros l Hl. apply is_bio_label_spec, Hl.
  - assert (H : forallb (fun c => has_label ("B-" +:+ c) && has_label ("I-" +:+ c))
                        categories = true) by (vm_compute; reflexivity).
    apply forallb_Forall_true in H.
    eapply List.Forall_impl; [|exact H].
    intros c Hc. apply andb_true_iff in Hc. destruct Hc as [Hb Hi].
    split; apply existsb_eqb_In; assumption.
Qed.

Lemma document_images_eq :
  document_images report =
    ["images/2023-09-18-23-06-37.png"; "images/2023-09-19-00-30-13.png"].
Proof. vm_compute. reflexivity. Qed.

(** C7: the document references two images, both by a path relative to
    the notebook under the images/ directory; none is absolute or a URL,
    and no markdown line embeds an image in another way. *)
Theorem images_are_relative_paths :
  document_images report =
    ["images/2023-09-18-23-06-37.png"; "images/2023-09-19-00-30-13.png"] /\
  Forall (fun t => String.prefix "images/" t = true /\
                   is_absolute t = false /\ is_url t = false)
         (document_images report) /\
  Forall (fun l => has_html_image l = false) (markdown_lines report).
Proof.
  split; [exact document_images_eq|]. split.
  - assert (H : forallb (fun t => String.prefix "images/" t
                                  && negb (is_absolute t) && negb (is_url t))
                        (document_images report) = true)
      by (vm_compute; reflexivity).
    apply forallb_Forall_true in H.
    eapply List.Forall_impl; [|exact H].
    intros t Ht. apply andb_true_iff in Ht. destruct Ht as [Ht Hu].
    apply andb_true_iff in Ht. destruct Ht as [Hp Ha].
    apply negb_true_iff in Ha, Hu. auto.
  - assert (H : forallb (fun l => negb (has_html_image l)) (markdown_lines report) = true)
      by (vm_compute; reflexivity).
    apply forallb_Forall_true in H.
    eapply List.Forall_impl; [|exact H].
    intros l Hl. apply negb_true_iff in Hl. exact Hl.
Qed.

(** ** The statements of the code cell *)

Lemma parse_config_source : parse_cell config_source = Some config_stmts.
Proof. vm_compute. reflexivity. Qed.

Lemma report_code_cells : code_cells report = [config_cell].
Proof. reflexivity. Qed.

(** C2, as stated, fails: the second statement of the cell imports
    pandas, which sets no display option. *)
Lemma config_cell_has_other_statements :
  code_cells report = [config_cell] /\
  parse_cell (source config_cell) = Some config_stmts /\
  config_stmts !! 1%nat = Some (SImport "pandas" "pd") /\
  is_display_config (SImport "pandas" "pd") = false /\
  ~ Forall (fun s => is_display_config s = true) config_stmts.
Proof.
  split; [reflexivity|]. split; [exact parse_config_source|].
  split; [reflexivity|]. split; [reflexivity|].
  intros H. apply Forall_cons in H. destruct H as [_ H].
  apply Forall_cons in H. destruct H as [H _]. discriminate H.
Qed.

(** C2, amended: every statement of the one code cell sets a display
    option (figure format, font, inline backend), imports a module, or
    binds the integer constant DPI; every value the cell assigns is a
    literal, and no line of the cell is a control-flow statement. *)
Theorem config_cell_statement_kinds :
  code_cells report = [config_cell] /\
  parse_cell (source config_cell) = Some config_stmts /\
  Forall (fun s => is_display_config s = true \/ is_import s = true \/
                   is_constant_binding s = true) config_stmts /\
  omap display_option_of config_stmts = [FigureFormat; Font; InlineBackendChoice] /\
  List.filter is_constant_binding config_stmts = [SAssign "DPI" (VInt 800)] /\
  Forall (fun s => match assigned_value s with
                   | Some v => is_literal v = true
                   | None => True
                   end) config_stmts /\
  Forall (fun l => is_control_flow l = false) (source config_cell).
Proof.
  split; [reflexivity|]. split; [exact parse_config_source|].
  split.
  { unfold config_stmts.
    repeat (constructor;
            [first [left; reflexivity | right; left; reflexivity
                   | right; right; reflexivity]|]).
    constructor. }
  split; [reflexivity|]. split; [reflexivity|].
  split.
  { unfold config_stmts.
    repeat (constructor; [first [reflexivity | exact I]|]). constructor. }
  assert (H : forallb (fun l => negb (is_control_flow l))
                      (source config_cell) = true) by (vm_compute; reflexivity).
  apply forallb_Forall_true in H.
  eapply List.Forall_impl; [|exact H].
  intros l Hl. apply negb_true_iff in Hl. exact Hl.
Qed.

(** ** Running the code cell *)

Lemma run_cell_unfold (k : Kernel) (st : State) :
  run_cell k st = run k config_stmts st.
Proof. unfold run_cell, run_source. rewrite parse_config_source. reflexivity. Qed.

Lemma required_modules_config_stmts :
  required_modules config_stmts =
    ["pandas"; "numpy"; "matplotlib.pyplot"; "matplotlib.image"; "seaborn"; "matplotlib"].
Proof. reflexivity. Qed.

Lemma import_module_found (k : Kernel) (m : string) (next : result) :
  m ∈ importable k -> import_module k m next = next.
Proof. intros H. unfold import_module. rewrite decide_True; [reflexivity|exact H]. Qed.

Lemma plt_bound (ns : gmap string value) :
  (<["sns" := VModule "seaborn"]>
     (<["imread" := VMember "matplotlib.image" "imread"]>
        (<["plt" := VModule "matplotlib.pyplot"]> ns))) !! "plt"
  = Some (VModule "matplotlib.pyplot").
Proof.
  rewrite lookup_insert_ne by discriminate.
  rewrite lookup_insert_ne by discriminate.
  apply lookup_insert_eq.
Qed.

(** The font family as matplotlib stores it: a list of one name. *)
Lemma font_family_validated :
  rc_validate "font.family" (VStr "Latin Modern Roman") =
  Some (VList [VStr "Latin Modern Roman"]).
Proof. vm_compute. reflexivity. Qed.

Lemma inline_backend :
  backend_of (lower "inline") = Some "module://matplotlib_inline.backend_inline".
Proof. vm_compute. reflexivity. Qed.

(** Binding another name, or writing a trait or a parameter, leaves the
    binding of [get_ipython] alone. *)
Lemma shell_ok_set_user_ns (x : string) (v : value) (st : State) :
  x <> "get_ipython" -> shell_ok (set_user_ns (insert x v) st) = shell_ok st.
Proof.
  intros Hx. unfold shell_ok, set_user_ns. cbn [user_ns].
  rewrite lookup_insert_ne by exact Hx. reflexivity.
Qed.

Lemma shell_ok_set_rcParams (f : gmap string value -> gmap string value) (st : State) :
  shell_ok (set_rcParams f st) = shell_ok st.
Proof. reflexivity. Qed.

Lemma shell_ok_set_config
      (f : gmap (string * string) value -> gmap (string * string) value) (st : State) :
  shell_ok (set_config f st) = shell_ok st.
Proof. reflexivity. Qed.

Lemma shell_ok_configured (st : State) : shell_ok (configured st) = shell_ok st.
Proof.
  unfold shell_ok, configured. cbn [user_ns].
  rewrite !lookup_insert_ne by discriminate. reflexivity.
Qed.

Lemma run_config_stmts_ok (k : Kernel) (st : State) :
  provides k config_stmts -> shell_ok st = true ->
  run k config_stmts st = inr (configured st).
Proof.
  unfold provides. rewrite required_modules_config_stmts. intros H Hs.
  repeat (apply Forall_cons in H; destruct H as [? H]).
  unfold config_stmts. cbn [run exec bind].
  unfold run_line_magic at 1. rewrite Hs. cbn [bind].
  repeat (rewrite import_module_found by assumption; cbn [bind]).
  cbn [user_ns set_user_ns set_config]. rewrite plt_bound.
  change (has_rcParams "matplotlib.pyplot" "rcParams") with true.
  cbv iota. rewrite font_family_validated. cbn [bind].
  unfold run_line_magic.
  rewrite shell_ok_set_user_ns, shell_ok_set_rcParams by discriminate.
  rewrite !shell_ok_set_user_ns, shell_ok_set_config, Hs by discriminate.
  rewrite import_module_found by assumption.
  rewrite inline_backend. reflexivity.
Qed.

Lemma run_config_stmts_inv (k : Kernel) (st st' : State) :
  run k config_stmts st = inr st' ->
  provides k config_stmts /\ shell_ok st = true /\ st' = configured st.
Proof.
  unfold provides. rewrite required_modules_config_stmts.
  unfold config_stmts. cbn [run exec bind].
  unfold run_line_magic at 1.
  destruct (shell_ok st) eqn:Hs; [|discriminate]. cbn [bind].
  unfold import_module.
  repeat (case_decide; cbn [bind]; [|discriminate]).
  cbn [user_ns set_user_ns set_config]. rewrite plt_bound.
  change (has_rcParams "matplotlib.pyplot" "rcParams") with true.
  cbv iota. rewrite font_family_validated. cbn [bind].
  unfold run_line_magic.
  rewrite shell_ok_set_user_ns, shell_ok_set_rcParams by discriminate.
  rewrite !shell_ok_set_user_ns, shell_ok_set_config, Hs by discriminate.
  case_decide; [|discriminate].
  rewrite inline_backend.
  intros [= <-]. split; [|split; reflexivity].
  repeat (constructor; [assumption|]). constructor.
Qed.

Lemma configured_idem (st : State) : configured (configured st) = configured st.
Proof.
  unfold configured. cbn [config rcParams user_ns backend stdout].
  f_equal.
  - apply insert_insert_eq.
  - apply map_eq. intros x. rewrite !lookup_insert.
    repeat (case_decide; [reflexivity|]). reflexivity.
  - apply map_eq. intros x. rewrite !lookup_insert.
    repeat (case_decide; [reflexivity|]). reflexivity.
Qed.

Lemma run_cell_ok (k : Kernel) (st : State) :
  provides k config_stmts -> shell_ok st = true ->
  run_cell k st = inr (configured st).
Proof. rewrite run_cell_unfold. apply run_config_stmts_ok. Qed.

Lemma run_cell_inv (k : Kernel) (st st' : State) :
  run_cell k st = inr st' ->
  provides k config_stmts /\ shell_ok st = true /\ st' = configured st.
Proof. rewrite run_cell_unfold. apply run_config_stmts_inv. Qed.

Lemma full_kernel_provides : provides full_kernel config_stmts.
Proof.
  unfold provides. rewrite required_modules_config_stmts.
  repeat (constructor; [vm_compute; reflexivity|]).
  constructor.
Defined.

(** A second run of the cell from the state the first one left changes
    nothing. *)
Lemma config_cell_rerun (k : Kernel) (st st' : State) :
  run_cell k st = inr st' -> run_cell k st' = inr st'.
Proof.
  intros E. apply run_cell_inv in E. destruct E as (Hk & Hs & ->).
  rewrite (run_cell_ok k _ Hk) by (rewrite shell_ok_configured; exact Hs).
  f_equal. apply configured_idem.
Qed.

(** C10: executing the cell twice in a row gives the same result as
    executing it once, from every initial state and on every
    installation. *)
Theorem config_cell_idempotent (k : Kernel) (st : State) :
  run_cell k st >>= run_cell k = run_cell k st.
Proof.
  destruct (run_cell k st) as [e|st'] eqn:E; [reflexivity|].
  apply run_cell_inv in E. destruct E as (Hk & Hs & ->).
  cbn [bind].
  rewrite (run_cell_ok k _ Hk) by (rewrite shell_ok_configured; exact Hs).
  f_equal. apply configured_idem.
Qed.

(** C3, as stated, fails: where pandas cannot be imported the cell raises
    at its first import. *)
Lemma config_cell_raises_without_pandas :
  run_cell bare_kernel fresh = inl (ModuleNotFoundError "pandas") /\
  ~ (forall (k : Kernel) (st : State), exists st', run_cell k st = inr st').
Proof.
  assert (E : run_cell bare_kernel fresh = inl (ModuleNotFoundError "pandas"))
    by (vm_compute; reflexivity).
  split; [exact E|].
  intros H. destruct (H bare_kernel fresh) as [st' Hst'].
  rewrite E in Hst'. discriminate Hst'.
Qed.

(** The installation is not all the cell depends on: in a session that
    has rebound [get_ipython] to an integer, the first magic line raises
    TypeError, also where every module can be imported. *)
Lemma config_cell_raises_when_get_ipython_rebound :
  run_cell full_kernel rebound = inl (TypeError "get_ipython").
Proof. vm_compute. reflexivity. Qed.

Lemma shell_ok_session (formats font dpi : option value) :
  shell_ok (session formats font dpi) = true.
Proof.
  unfold shell_ok, session. cbn [user_ns].
  rewrite lookup_partial_alter_ne by discriminate. reflexivity.
Qed.

(** C3, amended: on an installation that can import the modules the cell
    needs, the cell runs to its end in a session of a fresh kernel,
    whatever the figure formats, the font family and the DPI binding are
    at the start. *)
Theorem config_cell_runs_from_fresh_session
        (k : Kernel) (formats font dpi : option value) :
  provides k config_stmts ->
  exists st', run_cell k (session formats font dpi) = inr st'.
Proof.
  intros Hk. eexists.
  apply (run_cell_ok k _ Hk), shell_ok_session.
Qed.

Lemma config_cell_runs_witness :
  provides full_kernel config_stmts /\
  exists st',
    run_cell full_kernel
      (session (Some (VList [VStr "png"])) (Some (VList [VStr "sans-serif"]))
               (Some (VInt 100)))
    = inr st'.
Proof.
  split; [exact full_kernel_provides|].
  apply (config_cell_runs_from_fresh_session full_kernel).
  exact full_kernel_provides.
Defined.





(** * Further properties *)

Import Confusion Document.

(** ** The cell and the installation *)




(** ** The formulas of the Metrics section *)

Section Formulas.

Local Open Scope Q_scope.

Lemma Qsquare_nonneg (a : Q) : 0 <= a * a.
Proof. nra. Qed.

(** X5: by the three formulas of the section, F1 is
    2*TP / (2*TP + FP + FN) whenever there is a true positive. *)
Theorem f1_from_counts (tp fp fn : Q) :
  0 < tp -> 0 <= fp -> 0 <= fn ->
  f1_of tp fp fn == 2 * tp / (2 * tp + fp + fn).
Proof.
  intros Htp Hfp Hfn.
  assert (H1 : 0 < tp * tp) by (apply Qmult_lt_0_compat; lra).
  assert (H2 : 0 <= tp * fn) by (apply Qmult_le_0_compat; lra).
  assert (H3 : 0 <= tp * fp) by (apply Qmult_le_0_compat; lra).
  unfold f1_of, harmonic_mean, precision_of, recall_of.
  field. repeat split; lra.
Qed.

Lemma f1_from_counts_witness :
  0 < 3 /\ 0 <= 1 /\ 0 <= 2 /\ f1_of 3 1 2 == 2 * 3 / (2 * 3 + 1 + 2).
Proof.
  split; [reflexivity|]. split; [discriminate|]. split; [discriminate|].
  apply (f1_from_counts 3 1 2); [reflexivity | discriminate | discriminate].
Defined.

(** X6: F1 lies between precision and recall: it is at least the smaller
    and at most the larger of the two. *)
Theorem f1_between_precision_and_recall (p r : Q) :
  0 < p -> p <= r ->
  p <= harmonic_mean p r /\ harmonic_mean p r <= r /\
  harmonic_mean r p == harmonic_mean p r.
Proof.
  intros Hp Hpr. unfold harmonic_mean.
  assert (H : 0 <= p * (r - p)) by (apply Qmult_le_0_compat; lra).
  assert (H' : 0 <= r * (r - p)) by (apply Qmult_le_0_compat; lra).
  split; [apply Qle_shift_div_l; lra|].
  split; [apply Qle_shift_div_r; lra|].
  field. repeat split; lra.
Qed.

Lemma f1_between_precision_and_recall_witness :
  0 < 59 # 100 /\ 59 # 100 <= 67 # 100 /\
  59 # 100 <= harmonic_mean (59 # 100) (67 # 100) /\
  harmonic_mean (59 # 100) (67 # 100) <= 67 # 100.
Proof.
  assert (Hp : 0 < 59 # 100) by reflexivity.
  assert (Hr : 59 # 100 <= 67 # 100) by discriminate.
  split; [exact Hp|]. split; [exact Hr|].
  destruct (f1_between_precision_and_recall (59 # 100) (67 # 100) Hp Hr)
    as (Hlo & Hhi & _).
  split; [exact Hlo | exact Hhi].
Defined.

(** X7: F1 never exceeds the arithmetic mean of precision and recall, and
    equals it only when the two coincide. *)
Theorem f1_at_most_arithmetic_mean (p r : Q) :
  0 < p -> 0 < r ->
  harmonic_mean p r <= (p + r) / 2 /\
  (harmonic_mean p r == (p + r) / 2 -> p == r).
Proof.
  intros Hp Hr. unfold harmonic_mean.
  pose proof (Qsquare_nonneg (p - r)) as Hsq.
  assert (E : (p + r) / 2 - 2 * (p * r) / (p + r)
              == (p - r) * (p - r) / (2 * (p + r))) by (field; lra).
  assert (Hd : 0 < 2 * (p + r)) by lra.
  split.
  - assert (H0 : 0 <= (p - r) * (p - r) / (2 * (p + r)))
      by (apply Qle_shift_div_l; lra).
    lra.
  - intros Heq.
    assert (Hz : (p - r) * (p - r) / (2 * (p + r)) == 0) by lra.
    assert (Hn : (p - r) * (p - r) == 0).
    { apply (Qmult_inj_r _ _ (/ (2 * (p + r)))).
      - intros Hinv. apply (Qinv_lt_0_compat) in Hd. lra.
      - unfold Qdiv in Hz. rewrite Hz. ring. }
    apply Qmult_integral in Hn. destruct Hn; lra.
Qed.

Lemma f1_at_most_arithmetic_mean_witness :
  0 < 7803 # 100 /\ 0 < 8256 # 100 /\
  harmonic_mean (7803 # 100) (8256 # 100) <= ((7803 # 100) + (8256 # 100)) / 2.
Proof.
  assert (Hp : 0 < 7803 # 100) by reflexivity.
  assert (Hr : 0 < 8256 # 100) by reflexivity.
  split; [exact Hp|]. split; [exact Hr|].
  exact (proj1 (f1_at_most_arithmetic_mean (7803 # 100) (8256 # 100) Hp Hr)).
Defined.

(** X8: with the other counts fixed, accuracy does not decrease when
    true negatives are added, and it is at least the share of true
    negatives: many true negatives alone make it high. *)
Theorem accuracy_grows_with_true_negatives (tp tn tn' fp fn : Q) :
  0 <= tp -> 0 <= fp -> 0 <= fn -> 0 <= tn -> tn <= tn' ->
  0 < tp + tn + fp + fn ->
  accuracy_of tp tn fp fn <= accuracy_of tp tn' fp fn /\
  tn / (tp + tn + fp + fn) <= accuracy_of tp tn fp fn.
Proof.
  intros Htp Hfp Hfn Htn Hle Hpos. unfold accuracy_of.
  assert (Hpos' : 0 < tp + tn' + fp + fn) by lra.
  split.
  - apply Qle_shift_div_l; [exact Hpos'|].
    assert (E : (tp + tn) / (tp + tn + fp + fn) * (tp + tn' + fp + fn)
                == (tp + tn) * (tp + tn' + fp + fn) / (tp + tn + fp + fn))
      by (field; lra).
    rewrite E. apply Qle_shift_div_r; [exact Hpos|].
    assert (H : 0 <= (fp + fn) * (tn' - tn)) by (apply Qmult_le_0_compat; lra).
    lra.
  - apply Qle_shift_div_l; [exact Hpos|].
    assert (E : tn / (tp + tn + fp + fn) * (tp + tn + fp + fn) == tn)
      by (field; lra).
    rewrite E. lra.
Qed.

Lemma accuracy_grows_with_true_negatives_witness :
  10 <= 90 /\ 0 < 5 + 10 + 3 + 2 /\
  accuracy_of 5 10 3 2 <= accuracy_of 5 90 3 2.
Proof.
  split; [discriminate|]. split; [reflexivity|].
  apply (accuracy_grows_with_true_negatives 5 10 90 3 2);
    first [reflexivity | discriminate].
Defined.

(** X9: for counts with a true positive, precision, recall, accuracy and
    F1 all lie between 0 and 1, and precision, recall and F1 are
    positive. *)
Theorem metrics_in_unit_interval (tp tn fp fn : Q) :
  0 < tp -> 0 <= tn -> 0 <= fp -> 0 <= fn ->
  (0 < precision_of tp fp /\ precision_of tp fp <= 1) /\
  (0 < recall_of tp fn /\ recall_of tp fn <= 1) /\
  (0 < accuracy_of tp tn fp fn /\ accuracy_of tp tn fp fn <= 1) /\
  (0 < f1_of tp fp fn /\ f1_of tp fp fn <= 1).
Proof.
  intros Htp Htn Hfp Hfn.
  assert (Hf := f1_from_counts tp fp fn Htp Hfp Hfn).
  rewrite Hf. unfold precision_of, recall_of, accuracy_of.
  repeat split;
    first [ apply Qlt_shift_div_l; lra | apply Qle_shift_div_r; lra ].
Qed.

Lemma metrics_in_unit_interval_witness :
  0 < 3 /\ 0 < precision_of 3 1 /\ precision_of 3 1 <= 1.
Proof.
  split; [reflexivity|].
  apply (metrics_in_unit_interval 3 4 1 2); first [reflexivity | discriminate].
Defined.

End Formulas.

(** ** Cross-checks within the document *)

(** X11: the supports of the four classes of the per-class table add up
    to 5946, the number of sentences the dataset table gives for the
    testing set. *)
Theorem support_total_is_test_set_size :
  total_support = Some 5946%N /\
  dataset_sentences "Testing" = Some 5946%N /\
  total_support = dataset_sentences "Testing".
Proof.
  assert (E1 : total_support = Some 5946%N) by (vm_compute; reflexivity).
  assert (E2 : dataset_sentences "Testing" = Some 5946%N) by (vm_compute; reflexivity).
  split; [exact E1|]. split; [exact E2|]. rewrite E1, E2. reflexivity.
Qed.

(** X12: in the tokenization example, gluing the [##] pieces of the 46
    tokens back together gives the lower-cased words of the quoted
    sentence, up to the last token: the list ends with a full stop where
    the sentence ends with an apostrophe.  The word precautionary is the
    four pieces pre, ##ca, ##ution, ##ary, which stand at positions 37 to
    40 of the list. *)
Theorem tokenization_example_matches_sentence :
  exists toks sentence,
    example_tokens = Some toks /\
    example_sentence = Some sentence /\
    length toks = 46 /\
    removelast (merge_pieces toks) =
      removelast (map lowercase (split_char " "%char sentence)) /\
    List.last (merge_pieces toks) "" = "." /\
    List.last (split_char " "%char sentence) "" = "'" /\
    take 4 (drop 36 toks) = ["pre"; "##ca"; "##ution"; "##ary"] /\
    merge_pieces ["pre"; "##ca"; "##ution"; "##ary"] = ["precautionary"].
Proof.
  eexists. eexists.
  split; [vm_compute; reflexivity|].
  split; [vm_compute; reflexivity|].
  split; [reflexivity|].
  split; [vm_compute; reflexivity|].
  split; [vm_compute; reflexivity|].
  split; [vm_compute; reflexivity|].
  split; vm_compute; reflexivity.
Qed.

(** X13: the text makes four cross-references; the two to figures name
    labels that attribute blocks of the document define, and the two to
    tables name no label: in the blocks after the two table captions a
    double quote follows the name, and they define nothing. *)
Theorem cross_references_and_labels :
  document_references report =
    ["fig-networktransfer"; "fig-bert"; "tbl-general-results"; "tbl-detail-results"] /\
  document_labels report = ["fig-networktransfer"; "fig-bert"] /\
  In "fig-networktransfer" (document_labels report) /\
  In "fig-bert" (document_labels report) /\
  ~ In "tbl-general-results" (document_labels report) /\
  ~ In "tbl-detail-results" (document_labels report) /\
  existsb (contains ("{#tbl-general-results" +:+ dq +:+ "}"))
          (markdown_lines report) = true /\
  existsb (contains ("{#tbl-detail-results" +:+ dq +:+ "}"))
          (markdown_lines report) = true.
Proof.
  assert (ER : document_references report =
    ["fig-networktransfer"; "fig-bert"; "tbl-general-results"; "tbl-detail-results"])
    by (vm_compute; reflexivity).
  assert (EL : document_labels report = ["fig-networktransfer"; "fig-bert"])
    by (vm_compute; reflexivity).
  split; [exact ER|]. split; [exact EL|].
  rewrite EL.
  split; [left; reflexivity|]. split; [right; left; reflexivity|].
  split; [intros [H|[H|[]]]; discriminate H|].
  split; [intros [H|[H|[]]]; discriminate H|].
  split; vm_compute; reflexivity.
Qed.
